(** * tal.enums: file formats, array layouts and camera systems

    A shallow embedding of [tal/enums.py].  Every [Enum] class of the
    module becomes an inductive type inside a Rocq module of the same
    name, together with its class body (the [NAME = value] assignments,
    in source order) and its methods.  The small part of Python that the
    methods rely on ([x in [...]], [assert], attribute lookup on a class,
    [str] of an enum member, member aliasing in [Enum]) is modelled once,
    in [Py]; what a method body reads and writes of the interpreter state
    is modelled in [PyRun]. *)

From Stdlib Require Import ZArith Ascii.
From stdpp Require Import base decidable option list finite strings gmap.

Local Open Scope Z_scope.
Local Open Scope string_scope.

(** ** The fragment of Python used by [tal/enums.py] *)

Module Py.

(** The two exceptions that a call on an enum member can end in: a failed
    [assert] (with the message of the statement, when it has one) and the
    lookup of an attribute that the class does not define. *)
Inductive exn : Type :=
| AssertionError (msg : option string)
| AttributeError (cls attr : string).

(** What a call comes to: a returned value or a raised exception. *)
Inductive outcome (A : Type) : Type :=
| Returns (a : A)
| Raises (e : exn).
Arguments Returns {A} a.
Arguments Raises {A} e.

(** The values that the methods of the module return. *)
Inductive value : Type :=
| VInt (z : Z)
| VBool (b : bool).

Definition omap {A B} (f : A → B) (o : outcome A) : outcome B :=
  match o with
  | Returns a => Returns (f a)
  | Raises e => Raises e
  end.

(** [x in [e1, ..., en]]: the list is scanned from the left and [x] is
    compared with each element.  Enum members are singletons whose [==] is
    identity, which is equality of constructors here. *)
Definition contains {A} `{EqDecision A} (x : A) (l : list A) : bool :=
  existsb (λ e, bool_decide (x = e)) l.

(** [assert cond, msg] followed by the rest [k] of the body, in the
    interpreter's default mode ([__debug__] true). *)
Definition assert_then {A} (cond : bool) (msg : option string)
    (k : outcome A) : outcome A :=
  if cond then k else Raises (AssertionError msg).

(** The body of an [Enum] class: its [NAME = value] lines, in order. *)
Definition enum_body : Type := list (string * Z).

(** [Enum] makes a member of each name whose value is new; a name bound
    to a value that an earlier name already has is an alias of that
    earlier member, not a member of its own. *)
Fixpoint members_from (seen : list Z) (body : enum_body) : enum_body :=
  match body with
  | [] => []
  | (n, v) :: rest =>
      if bool_decide (v ∈ seen) then members_from seen rest
      else (n, v) :: members_from (v :: seen) rest
  end.

Definition members (body : enum_body) : enum_body := members_from [] body.

(** An [Enum] class over the member type [T]: its name, its body and the
    methods that the class statement defines.  The bases [Enum] and
    [object] define none of the query methods of this module, so a lookup
    that misses the class's own methods fails. *)
Record enum_class (T : Type) : Type := EnumClass {
  cls_name : string;
  cls_body : enum_body;
  cls_methods : gmap string (T → outcome value)
}.
Arguments EnumClass {T} _ _ _.
Arguments cls_name {T} _.
Arguments cls_body {T} _.
Arguments cls_methods {T} _.

(** [str(self)] of a member of a plain [Enum], as an f-string renders
    [{self}]: the class name, a dot, the member name. *)
Definition str (cls member : string) : string := cls +:+ "." +:+ member.

(** [self.attr()] for an attribute name [attr] that the bases [Enum] and
    [object] do not define, as the query names [time_dim],
    [xyz_dim_is_last], [bp_accounts_for_d_2], [is_transient] and
    [implements_projector] are: the method is looked up among those of
    the class statement and applied to [self]; a miss raises
    [AttributeError].  The attributes that a member inherits ([name],
    [value], [__str__] and the like) are outside this model. *)
Definition call_method {T} (C : enum_class T) (attr : string) (self : T)
    : outcome value :=
  match cls_methods C !! attr with
  | Some m => m self
  | None => Raises (AttributeError (cls_name C) attr)
  end.

End Py.

(** ** [class FileFormat(Enum)] *)

Module FileFormat.

Inductive t : Type :=
| AUTODETECT
| HDF5_ZNLOS
| HDF5_NLOS_DIRAC
| HDF5_TAL
| MAT_PHASOR_FIELDS
| MAT_PHASOR_FIELD_DIFFRACTION.

#[global] Instance eq_dec : EqDecision t.
Proof. solve_decision. Defined.

#[global] Program Instance finite : Finite t := {|
  enum := [AUTODETECT; HDF5_ZNLOS; HDF5_NLOS_DIRAC; HDF5_TAL;
           MAT_PHASOR_FIELDS; MAT_PHASOR_FIELD_DIFFRACTION]
|}.
Next Obligation. by apply (bool_decide_unpack _). Qed.
Next Obligation. intros []; set_solver. Qed.

Definition name (f : t) : string :=
  match f with
  | AUTODETECT => "AUTODETECT"
  | HDF5_ZNLOS => "HDF5_ZNLOS"
  | HDF5_NLOS_DIRAC => "HDF5_NLOS_DIRAC"
  | HDF5_TAL => "HDF5_TAL"
  | MAT_PHASOR_FIELDS => "MAT_PHASOR_FIELDS"
  | MAT_PHASOR_FIELD_DIFFRACTION => "MAT_PHASOR_FIELD_DIFFRACTION"
  end.

Definition value (f : t) : Z :=
  match f with
  | AUTODETECT => 0
  | HDF5_ZNLOS => 1
  | HDF5_NLOS_DIRAC => 2
  | HDF5_TAL => 3
  | MAT_PHASOR_FIELDS => 4
  | MAT_PHASOR_FIELD_DIFFRACTION => 5
  end.

Definition body : Py.enum_body :=
  [("AUTODETECT", 0); ("HDF5_ZNLOS", 1); ("HDF5_NLOS_DIRAC", 2);
   ("HDF5_TAL", 3); ("MAT_PHASOR_FIELDS", 4);
   ("MAT_PHASOR_FIELD_DIFFRACTION", 5)].

Definition cls : Py.enum_class t := Py.EnumClass "FileFormat" body ∅.

End FileFormat.

(** ** [class HFormat(Enum)] *)

Module HFormat.

Inductive t : Type :=
| UNKNOWN
| T_Sx_Sy
| T_Lx_Ly_Sx_Sy
| T_Si
| T_Li_Si.

#[global] Instance eq_dec : EqDecision t.
Proof. solve_decision. Defined.

#[global] Program Instance finite : Finite t := {|
  enum := [UNKNOWN; T_Sx_Sy; T_Lx_Ly_Sx_Sy; T_Si; T_Li_Si]
|}.
Next Obligation. by apply (bool_decide_unpack _). Qed.
Next Obligation. intros []; set_solver. Qed.

Definition name (h : t) : string :=
  match h with
  | UNKNOWN => "UNKNOWN"
  | T_Sx_Sy => "T_Sx_Sy"
  | T_Lx_Ly_Sx_Sy => "T_Lx_Ly_Sx_Sy"
  | T_Si => "T_Si"
  | T_Li_Si => "T_Li_Si"
  end.

Definition value (h : t) : Z :=
  match h with
  | UNKNOWN => 0
  | T_Sx_Sy => 1
  | T_Lx_Ly_Sx_Sy => 2
  | T_Si => 3
  | T_Li_Si => 4
  end.

Definition body : Py.enum_body :=
  [("UNKNOWN", 0); ("T_Sx_Sy", 1); ("T_Lx_Ly_Sx_Sy", 2); ("T_Si", 3);
   ("T_Li_Si", 4)].

(** [time_dim]: the index of the time (T) dimension. *)
Definition time_dim (self : t) : Py.outcome Z :=
  Py.assert_then
    (Py.contains self [T_Sx_Sy; T_Lx_Ly_Sx_Sy; T_Si; T_Li_Si])
    (Some ("Unexpected HFormat " +:+ Py.str "HFormat" (name self)))
    (Py.Returns 0).

Definition cls : Py.enum_class t :=
  Py.EnumClass "HFormat" body
    {["time_dim" := λ self, Py.omap Py.VInt (time_dim self)]}.

End HFormat.

(** ** [class GridFormat(Enum)] *)

Module GridFormat.

Inductive t : Type :=
| UNKNOWN
| N_3
| X_Y_3.

#[global] Instance eq_dec : EqDecision t.
Proof. solve_decision. Defined.

#[global] Program Instance finite : Finite t := {|
  enum := [UNKNOWN; N_3; X_Y_3]
|}.
Next Obligation. by apply (bool_decide_unpack _). Qed.
Next Obligation. intros []; set_solver. Qed.

Definition name (g : t) : string :=
  match g with
  | UNKNOWN => "UNKNOWN"
  | N_3 => "N_3"
  | X_Y_3 => "X_Y_3"
  end.

Definition value (g : t) : Z :=
  match g with
  | UNKNOWN => 0
  | N_3 => 1
  | X_Y_3 => 2
  end.

Definition body : Py.enum_body := [("UNKNOWN", 0); ("N_3", 1); ("X_Y_3", 2)].

(** The class statement of [GridFormat] holds its docstring and the three
    members, and no [def]. *)
Definition cls : Py.enum_class t := Py.EnumClass "GridFormat" body ∅.

End GridFormat.

(** ** [class VolumeFormat(Enum)] *)

Module VolumeFormat.

Inductive t : Type :=
| UNKNOWN
| N_3
| X_Y_Z_3
| X_Y_3.

#[global] Instance eq_dec : EqDecision t.
Proof. solve_decision. Defined.

#[global] Program Instance finite : Finite t := {|
  enum := [UNKNOWN; N_3; X_Y_Z_3; X_Y_3]
|}.
Next Obligation. by apply (bool_decide_unpack _). Qed.
Next Obligation. intros []; set_solver. Qed.

Definition name (v : t) : string :=
  match v with
  | UNKNOWN => "UNKNOWN"
  | N_3 => "N_3"
  | X_Y_Z_3 => "X_Y_Z_3"
  | X_Y_3 => "X_Y_3"
  end.

Definition value (v : t) : Z :=
  match v with
  | UNKNOWN => 0
  | N_3 => 1
  | X_Y_Z_3 => 2
  | X_Y_3 => 3
  end.

Definition body : Py.enum_body :=
  [("UNKNOWN", 0); ("N_3", 1); ("X_Y_Z_3", 2); ("X_Y_3", 3)].

Definition xyz_dim_is_last (self : t) : Py.outcome bool :=
  Py.assert_then (Py.contains self [N_3; X_Y_Z_3; X_Y_3]) None
    (Py.Returns true).

Definition cls : Py.enum_class t :=
  Py.EnumClass "VolumeFormat" body
    {["xyz_dim_is_last" := λ self, Py.omap Py.VBool (xyz_dim_is_last self)]}.

End VolumeFormat.

(** ** [class CameraSystem(Enum)] *)

Module CameraSystem.

Inductive t : Type :=
| DIRECT_LIGHT
| CONFOCAL_TIME_GATED
| PROJECTOR_CAMERA
| PROJECTOR_CAMERA_T0
| TRANSIENT
| TRANSIENT_T0.

#[global] Instance eq_dec : EqDecision t.
Proof. solve_decision. Defined.

#[global] Program Instance finite : Finite t := {|
  enum := [DIRECT_LIGHT; CONFOCAL_TIME_GATED; PROJECTOR_CAMERA;
           PROJECTOR_CAMERA_T0; TRANSIENT; TRANSIENT_T0]
|}.
Next Obligation. by apply (bool_decide_unpack _). Qed.
Next Obligation. intros []; set_solver. Qed.

Definition name (c : t) : string :=
  match c with
  | DIRECT_LIGHT => "DIRECT_LIGHT"
  | CONFOCAL_TIME_GATED => "CONFOCAL_TIME_GATED"
  | PROJECTOR_CAMERA => "PROJECTOR_CAMERA"
  | PROJECTOR_CAMERA_T0 => "PROJECTOR_CAMERA_T0"
  | TRANSIENT => "TRANSIENT"
  | TRANSIENT_T0 => "TRANSIENT_T0"
  end.

Definition value (c : t) : Z :=
  match c with
  | DIRECT_LIGHT => 0
  | CONFOCAL_TIME_GATED => 1
  | PROJECTOR_CAMERA => 2
  | PROJECTOR_CAMERA_T0 => 3
  | TRANSIENT => 4
  | TRANSIENT_T0 => 5
  end.

Definition body : Py.enum_body :=
  [("DIRECT_LIGHT", 0); ("CONFOCAL_TIME_GATED", 1); ("PROJECTOR_CAMERA", 2);
   ("PROJECTOR_CAMERA_T0", 3); ("TRANSIENT", 4); ("TRANSIENT_T0", 5)].

Definition bp_accounts_for_d_2 (self : t) : bool :=
  Py.contains self [DIRECT_LIGHT; PROJECTOR_CAMERA; PROJECTOR_CAMERA_T0;
                    CONFOCAL_TIME_GATED].

Definition is_transient (self : t) : bool :=
  Py.contains self [TRANSIENT; CONFOCAL_TIME_GATED; PROJECTOR_CAMERA].

Definition implements_projector (self : t) : bool :=
  Py.contains self [PROJECTOR_CAMERA; PROJECTOR_CAMERA_T0].

Definition cls : Py.enum_class t :=
  Py.EnumClass "CameraSystem" body
    (<["bp_accounts_for_d_2" := λ self, Py.Returns (Py.VBool (bp_accounts_for_d_2 self))]>
     (<["is_transient" := λ self, Py.Returns (Py.VBool (is_transient self))]>
      (<["implements_projector" := λ self, Py.Returns (Py.VBool (implements_projector self))]>
       ∅))).

(** The variants whose source comment reads [evaluate ... at t=0]:
    [DIRECT_LIGHT] (confocal time gated at t=0), [TRANSIENT_T0] (transient
    at t=0) and [PROJECTOR_CAMERA_T0] (projector camera at t=0). *)
Definition single_instant : list t :=
  [DIRECT_LIGHT; TRANSIENT_T0; PROJECTOR_CAMERA_T0].

(** The three derived flags of a variant, in the order
    (accounts for inverse-square falloff, is transient, implements
    projector). *)
Definition flags (c : t) : bool * bool * bool :=
  (bp_accounts_for_d_2 c, is_transient c, implements_projector c).

End CameraSystem.

(** ** Format resolution *)

Module FormatCatalog.

(** Modelled from the spec: the error kind of a resolution that found no
    matching format.  The loader that resolves formats is not part of
    [tal/enums.py]; its catalog is described in section 4.1 of the
    specification only. *)
Inductive error : Type := FormatResolutionError.

(** Modelled from the spec: what [resolve] comes to, a concrete format or
    the error. *)
Inductive resolution : Type :=
| Resolved (f : FileFormat.t)
| Failed (e : error).

(** Modelled from the spec: the container types that the formats share,
    the HDF5 family and the MAT family. *)
Inductive container : Type := HDF5 | MAT.

(** Modelled from the spec: the concrete formats of each container
    family, as the member names and docstrings of [FileFormat] give
    them. *)
Definition formats_of (c : container) : list FileFormat.t :=
  match c with
  | HDF5 => [FileFormat.HDF5_ZNLOS; FileFormat.HDF5_NLOS_DIRAC;
             FileFormat.HDF5_TAL]
  | MAT => [FileFormat.MAT_PHASOR_FIELDS;
            FileFormat.MAT_PHASOR_FIELD_DIFFRACTION]
  end.

(** Which extensions belong to which family and which markers identify
    which format is left open by the specification: they are the
    parameters [extension_family] and [has_markers]; [read] is the
    read-only inspection of the file at a path. *)
Section Resolve.
Context {File : Type}.
Variable read : string → File.
Variable extension_family : string → option container.
Variable has_markers : File → FileFormat.t → bool.

(** Modelled from the spec: resolution of [AUTODETECT], missing from the
    sources.  The extension of the path is looked at first and gives the
    container family; the formats of that family are then told apart by
    the structural markers inside the file; resolution fails when no
    format matches after both checks. *)
Definition autodetect (path : string) : resolution :=
  match extension_family path with
  | None => Failed FormatResolutionError
  | Some c =>
      match List.find (has_markers (read path)) (formats_of c) with
      | Some f => Resolved f
      | None => Failed FormatResolutionError
      end
  end.

(** Modelled from the spec: the operation [resolve(path, declaredFormat)]
    of the format catalog, missing from the sources.  A declared concrete
    format is returned unchanged; [AUTODETECT] is resolved from the
    file. *)
Definition resolve (path : string) (declared : FileFormat.t) : resolution :=
  if bool_decide (declared = FileFormat.AUTODETECT) then autodetect path
  else Resolved declared.
End Resolve.

End FormatCatalog.

(** ** Access to the members of an [Enum] class *)

Module PyEnum.

(** The exceptions of a failed member lookup: [Cls(v)] on a value that no
    member has, and [Cls[key]] on a name that the class does not bind. *)
Inductive error : Type :=
| ValueError (v : Z)
| KeyError (key : string).

(** [Cls(v)]: the member whose value is [v].  A member is given as the
    pair of its name and its value. *)
Definition by_value (body : Py.enum_body) (v : Z) : error + string * Z :=
  match list_find (λ p, p.2 = v) (Py.members body) with
  | Some (_, m) => inr m
  | None => inl (ValueError v)
  end.

(** [Cls[key]]: the member that the class binds the name [key] to; the
    name of an alias is bound to the member it is an alias of. *)
Definition by_name (body : Py.enum_body) (key : string)
    : error + string * Z :=
  match list_find (λ p, p.1 = key) body with
  | Some (_, (_, v)) =>
      match list_find (λ p, p.2 = v) (Py.members body) with
      | Some (_, m) => inr m
      | None => inl (KeyError key)
      end
  | None => inl (KeyError key)
  end.

(** An [Enum] class of [tal/enums.py] over its embedding [T]: the class
    body with the name and the value of each constructor.  The
    constructors are the members that [Enum] makes of the body; the names
    of the body are distinct (Python refuses a class that binds a member
    name twice); and every class of the module numbers its members from 0
    upwards, in the order of the class statement. *)
Class TalEnum (T : Type) `{Finite T} : Type := {
  py_name : T → string;
  py_value : T → Z;
  py_body : Py.enum_body;
  py_members :
    Py.members py_body = (λ m, (py_name m, py_value m)) <$> enum T;
  py_names : NoDup py_body.*1;
  py_values : py_body.*2 = seqZ 0 (Z.of_nat (length py_body))
}.
Arguments py_body T {_ _ _}.

(** A constructor as the member it stands for. *)
Definition member {T} `{TalEnum T} (m : T) : string * Z :=
  (py_name m, py_value m).

End PyEnum.

#[global] Instance file_format_enum : PyEnum.TalEnum FileFormat.t := {|
  PyEnum.py_name := FileFormat.name;
  PyEnum.py_value := FileFormat.value;
  PyEnum.py_body := FileFormat.body;
  PyEnum.py_members := eq_refl;
  PyEnum.py_names := bool_decide_unpack (NoDup FileFormat.body.*1) I;
  PyEnum.py_values := eq_refl
|}.

#[global] Instance hformat_enum : PyEnum.TalEnum HFormat.t := {|
  PyEnum.py_name := HFormat.name;
  PyEnum.py_value := HFormat.value;
  PyEnum.py_body := HFormat.body;
  PyEnum.py_members := eq_refl;
  PyEnum.py_names := bool_decide_unpack (NoDup HFormat.body.*1) I;
  PyEnum.py_values := eq_refl
|}.

#[global] Instance grid_format_enum : PyEnum.TalEnum GridFormat.t := {|
  PyEnum.py_name := GridFormat.name;
  PyEnum.py_value := GridFormat.value;
  PyEnum.py_body := GridFormat.body;
  PyEnum.py_members := eq_refl;
  PyEnum.py_names := bool_decide_unpack (NoDup GridFormat.body.*1) I;
  PyEnum.py_values := eq_refl
|}.

#[global] Instance volume_format_enum : PyEnum.TalEnum VolumeFormat.t := {|
  PyEnum.py_name := VolumeFormat.name;
  PyEnum.py_value := VolumeFormat.value;
  PyEnum.py_body := VolumeFormat.body;
  PyEnum.py_members := eq_refl;
  PyEnum.py_names := bool_decide_unpack (NoDup VolumeFormat.body.*1) I;
  PyEnum.py_values := eq_refl
|}.

#[global] Instance camera_system_enum : PyEnum.TalEnum CameraSystem.t := {|
  PyEnum.py_name := CameraSystem.name;
  PyEnum.py_value := CameraSystem.value;
  PyEnum.py_body := CameraSystem.body;
  PyEnum.py_members := eq_refl;
  PyEnum.py_names := bool_decide_unpack (NoDup CameraSystem.body.*1) I;
  PyEnum.py_values := eq_refl
|}.

(** ** Camera systems evaluated at t = 0 *)

Module CameraTime.

(** The comments of the class body give three variants as another variant
    evaluated at t = 0: [DIRECT_LIGHT] is "evaluate confocal time gated at
    t=0", [PROJECTOR_CAMERA_T0] is "evaluate projector camera at t=0" and
    [TRANSIENT_T0] is "evaluate transient at t=0". *)
Definition evaluated_at_t0_of (c : CameraSystem.t) : option CameraSystem.t :=
  match c with
  | CameraSystem.DIRECT_LIGHT => Some CameraSystem.CONFOCAL_TIME_GATED
  | CameraSystem.PROJECTOR_CAMERA_T0 => Some CameraSystem.PROJECTOR_CAMERA
  | CameraSystem.TRANSIENT_T0 => Some CameraSystem.TRANSIENT
  | _ => None
  end.

End CameraTime.

(** ** Member names as axis lists *)

Module PyStr.

(** [s.split(sep)] for a one-character separator: the pieces of [s]
    between the occurrences of [sep]; a string without [sep] is its own
    single piece. *)
Fixpoint split (sep : Ascii.ascii) (s : string) : list string :=
  match s with
  | EmptyString => [EmptyString]
  | String c rest =>
      if bool_decide (c = sep) then EmptyString :: split sep rest
      else
        match split sep rest with
        | piece :: pieces => String c piece :: pieces
        | [] => [String c EmptyString]
        end
  end.

(** The axes that a layout name lists, [T_Sx_Sy] giving [T], [Sx], [Sy]. *)
Definition axes (name : string) : list string := split "_"%char name.

End PyStr.

(** ** Method bodies as programs over the module state *)

Module PyRun.

(** The namespace of a class, its members by name, and the module
    globals, the classes by name: the state that the expression
    [CameraSystem.TRANSIENT] in a method body is evaluated in. *)
Definition namespace (T : Type) : Type := gmap string T.
Definition store (T : Type) : Type := gmap string (gmap string T).

Inductive failure : Type :=
| NameError (name : string)
| AttributeError (cls attr : string).

(** What a body does to that state, step by step: it returns, it raises,
    it reads a global name, or it binds a global name (an assignment).
    [T] is the type of the member objects. *)
Inductive prog (T A : Type) : Type :=
| Return (a : A)
| Raise (e : failure)
| LoadGlobal (name : string) (k : gmap string T → prog T A)
| StoreGlobal (name : string) (ns : gmap string T) (k : prog T A).
Arguments Return {T A} a.
Arguments Raise {T A} e.
Arguments LoadGlobal {T A} name k.
Arguments StoreGlobal {T A} name ns k.

Fixpoint bind {T A B} (p : prog T A) (f : A → prog T B) : prog T B :=
  match p with
  | Return a => f a
  | Raise e => Raise e
  | LoadGlobal x k => LoadGlobal x (λ ns, bind (k ns) f)
  | StoreGlobal x ns k => StoreGlobal x ns (bind k f)
  end.

(** Running a program from a store: the result, a value or the exception
    raised, and the store that is left. *)
Fixpoint exec {T A} (p : prog T A) (σ : store T) : (failure + A) * store T :=
  match p with
  | Return a => (inr a, σ)
  | Raise e => (inl e, σ)
  | LoadGlobal x k =>
      match σ !! x with
      | Some ns => exec (k ns) σ
      | None => (inl (NameError x), σ)
      end
  | StoreGlobal x ns k => exec k (<[x := ns]> σ)
  end.

(** The expression [Cls.ATTR]: the global [Cls] is read, then its
    attribute. *)
Definition load_member {T} (cls attr : string) : prog T T :=
  LoadGlobal cls (λ ns,
    match ns !! attr with
    | Some m => Return m
    | None => Raise (AttributeError cls attr)
    end).

(** The list display [[Cls.A1, ..., Cls.An]], its elements evaluated from
    the left. *)
Fixpoint list_display {T} (cls : string) (attrs : list string)
    : prog T (list T) :=
  match attrs with
  | [] => Return []
  | attr :: rest =>
      bind (load_member cls attr) (λ m,
      bind (list_display cls rest) (λ l,
      Return (m :: l)))
  end.

(** The body [return self in [Cls.A1, ..., Cls.An]]. *)
Definition return_self_in {T} `{EqDecision T} (self : T) (cls : string)
    (attrs : list string) : prog T bool :=
  bind (list_display cls attrs) (λ l, Return (Py.contains self l)).

(** A program that binds no global: it only reads. *)
Fixpoint read_only {T A} (p : prog T A) : Prop :=
  match p with
  | Return _ | Raise _ => True
  | LoadGlobal _ k => ∀ ns, read_only (k ns)
  | StoreGlobal _ _ _ => False
  end.

(** Two successive runs of [p] from [σ], the second from the store that
    the first one left, give the same result and leave the store [σ]. *)
Definition repeatable {T A} (p : prog T A) (σ : store T) : Prop :=
  let '(r1, σ1) := exec p σ in
  let '(r2, σ2) := exec p σ1 in
  r1 = r2 ∧ σ1 = σ ∧ σ2 = σ.

End PyRun.

(** The three query methods of [CameraSystem] as programs: each body is
    one [return self in [...]] over members of the global
    [CameraSystem]. *)
Module CameraSystemRun.

Definition bp_accounts_for_d_2 (self : CameraSystem.t)
    : PyRun.prog CameraSystem.t bool :=
  PyRun.return_self_in self "CameraSystem"
    ["DIRECT_LIGHT"; "PROJECTOR_CAMERA"; "PROJECTOR_CAMERA_T0";
     "CONFOCAL_TIME_GATED"].

Definition is_transient (self : CameraSystem.t)
    : PyRun.prog CameraSystem.t bool :=
  PyRun.return_self_in self "CameraSystem"
    ["TRANSIENT"; "CONFOCAL_TIME_GATED"; "PROJECTOR_CAMERA"].

Definition implements_projector (self : CameraSystem.t)
    : PyRun.prog CameraSystem.t bool :=
  PyRun.return_self_in self "CameraSystem"
    ["PROJECTOR_CAMERA"; "PROJECTOR_CAMERA_T0"].

(** The module state after [tal/enums.py] has run, as far as these bodies
    read it: the global [CameraSystem] with its six members. *)
Definition module_store : PyRun.store CameraSystem.t :=
  {["CameraSystem" :=
      list_to_map ((λ c, (CameraSystem.name c, c)) <$> enum CameraSystem.t)]}.

(** A body that is not one of the module's: it rebinds the global
    [CameraSystem] to an empty class before it returns. *)
Definition rebinding_body : PyRun.prog CameraSystem.t bool :=
  PyRun.StoreGlobal "CameraSystem" ∅ (PyRun.Return true).

End CameraSystemRun.

(** ** Lemmas on the Python fragment *)

Lemma contains_elem_of {A} `{EqDecision A} (x : A) (l : list A) :
  Py.contains x l = true ↔ x ∈ l.
Proof.
  unfold Py.contains. rewrite existsb_exists. split.
  - intros (e & Hin & Heq). apply bool_decide_eq_true in Heq.
    subst e. by apply list_elem_of_In.
  - intros Hin. exists x. split; [by apply list_elem_of_In|].
    by apply bool_decide_eq_true.
Qed.

Lemma contains_not_elem_of {A} `{EqDecision A} (x : A) (l : list A) :
  Py.contains x l = false ↔ x ∉ l.
Proof.
  rewrite <- contains_elem_of. by destruct (Py.contains x l).
Qed.

(** ** Theorems *)

(** C1.  For each of the six [CameraSystem] variants the triple
    ([bp_accounts_for_d_2], [is_transient], [implements_projector]) is the
    one of the table: the first flag holds exactly for [DIRECT_LIGHT],
    [PROJECTOR_CAMERA], [PROJECTOR_CAMERA_T0] and [CONFOCAL_TIME_GATED],
    the second exactly for [TRANSIENT], [CONFOCAL_TIME_GATED] and
    [PROJECTOR_CAMERA], the third exactly for [PROJECTOR_CAMERA] and
    [PROJECTOR_CAMERA_T0]. *)
Theorem camera_system_flag_table (c : CameraSystem.t) :
  CameraSystem.flags c =
    match c with
    | CameraSystem.DIRECT_LIGHT => (true, false, false)
    | CameraSystem.CONFOCAL_TIME_GATED => (true, true, false)
    | CameraSystem.PROJECTOR_CAMERA => (true, true, true)
    | CameraSystem.PROJECTOR_CAMERA_T0 => (true, false, true)
    | CameraSystem.TRANSIENT => (false, true, false)
    | CameraSystem.TRANSIENT_T0 => (false, false, false)
    end.
Proof. by destruct c. Qed.

(** The member list that [Enum] builds from each class body is the list of
    constructors of the embedding, with their names and values: no two
    names of a body share a value, so no name is an alias. *)
Lemma file_format_members :
  Py.members FileFormat.body =
    (λ f, (FileFormat.name f, FileFormat.value f)) <$> enum FileFormat.t.
Proof. reflexivity. Qed.

Lemma hformat_members :
  Py.members HFormat.body =
    (λ h, (HFormat.name h, HFormat.value h)) <$> enum HFormat.t.
Proof. reflexivity. Qed.

Lemma grid_format_members :
  Py.members GridFormat.body =
    (λ g, (GridFormat.name g, GridFormat.value g)) <$> enum GridFormat.t.
Proof. reflexivity. Qed.

Lemma volume_format_members :
  Py.members VolumeFormat.body =
    (λ v, (VolumeFormat.name v, VolumeFormat.value v)) <$> enum VolumeFormat.t.
Proof. reflexivity. Qed.

Lemma camera_system_members :
  Py.members CameraSystem.body =
    (λ c, (CameraSystem.name c, CameraSystem.value c)) <$> enum CameraSystem.t.
Proof. reflexivity. Qed.

(** An alias does not become a member: the rule at work on a body that
    repeats a value. *)
Example members_alias :
  Py.members [("A", 0); ("B", 1); ("C", 0)] = [("A", 0); ("B", 1)].
Proof. reflexivity. Qed.

(** The method tables hand a call on to the method of that name. *)
Lemma hformat_call_time_dim (h : HFormat.t) :
  Py.call_method HFormat.cls "time_dim" h
  = Py.omap Py.VInt (HFormat.time_dim h).
Proof. reflexivity. Qed.

Lemma volume_format_call_xyz_dim_is_last (v : VolumeFormat.t) :
  Py.call_method VolumeFormat.cls "xyz_dim_is_last" v
  = Py.omap Py.VBool (VolumeFormat.xyz_dim_is_last v).
Proof. reflexivity. Qed.

Lemma camera_system_call_is_transient (c : CameraSystem.t) :
  Py.call_method CameraSystem.cls "is_transient" c
  = Py.Returns (Py.VBool (CameraSystem.is_transient c)).
Proof. reflexivity. Qed.

Lemma call_method_undefined {T} (C : Py.enum_class T) (attr : string)
    (self : T) :
  Py.cls_methods C !! attr = None →
  Py.call_method C attr self
  = Py.Raises (Py.AttributeError (Py.cls_name C) attr).
Proof. intros Hnone. unfold Py.call_method. by rewrite Hnone. Qed.

(** *** Grid layout *)

(** C2, as stated, fails: on the variant [N_3] the call
    [xyz_dim_is_last()] of a [GridFormat] member does not return [True];
    the attribute lookup misses and the call raises [AttributeError]. *)
Lemma grid_format_xyz_dim_is_last_not_true :
  Py.call_method GridFormat.cls "xyz_dim_is_last" GridFormat.N_3
  = Py.Raises (Py.AttributeError "GridFormat" "xyz_dim_is_last")
  ∧ Py.call_method GridFormat.cls "xyz_dim_is_last" GridFormat.N_3
    ≠ Py.Returns (Py.VBool true).
Proof. split; [reflexivity | discriminate]. Qed.

(** C2, amended.  [GridFormat] does not define [xyz_dim_is_last]: on
    every [GridFormat] variant, [UNKNOWN] included, the call raises
    [AttributeError] and returns no value. *)
Theorem grid_format_has_no_xyz_dim_is_last (g : GridFormat.t) :
  Py.cls_methods GridFormat.cls !! "xyz_dim_is_last" = None
  ∧ Py.call_method GridFormat.cls "xyz_dim_is_last" g
    = Py.Raises (Py.AttributeError "GridFormat" "xyz_dim_is_last").
Proof.
  split; [apply lookup_empty|].
  apply (call_method_undefined GridFormat.cls), lookup_empty.
Qed.

(** *** Impulse-response layout *)

(** C3.  [HFormat.time_dim()] returns 0 on [T_Sx_Sy], [T_Lx_Ly_Sx_Sy],
    [T_Si] and [T_Li_Si], and on [UNKNOWN] it returns nothing: the
    assertion fails, with the message of the statement. *)
Theorem hformat_time_dim (h : HFormat.t) :
  HFormat.time_dim h =
    match h with
    | HFormat.UNKNOWN =>
        Py.Raises
          (Py.AssertionError (Some "Unexpected HFormat HFormat.UNKNOWN"))
    | _ => Py.Returns 0
    end.
Proof. by destruct h. Qed.

(** *** Volume layout *)

(** C4.  [VolumeFormat.xyz_dim_is_last()] returns [True] on [N_3],
    [X_Y_Z_3] and [X_Y_3], and on [UNKNOWN] it returns nothing: the
    assertion fails. *)
Theorem volume_format_xyz_dim_is_last (v : VolumeFormat.t) :
  VolumeFormat.xyz_dim_is_last v =
    match v with
    | VolumeFormat.UNKNOWN => Py.Raises (Py.AssertionError None)
    | _ => Py.Returns true
    end.
Proof. by destruct v. Qed.

(** *** Format catalog *)

(** C5.  For a declared format other than [AUTODETECT], [resolve] returns
    the declared format, whatever the path, the file read at it, the
    family of its extension and the markers found in it. *)
Theorem resolve_declared_unchanged {File : Type} (read : string → File)
    (extension_family : string → option FormatCatalog.container)
    (has_markers : File → FileFormat.t → bool)
    (path : string) (declared : FileFormat.t) :
  declared ≠ FileFormat.AUTODETECT →
  FormatCatalog.resolve read extension_family has_markers path declared
  = FormatCatalog.Resolved declared.
Proof.
  intros Hconcrete. unfold FormatCatalog.resolve.
  by rewrite bool_decide_eq_false_2.
Qed.

(** A file whose extension and content point at [HDF5_TAL], declared as
    [MAT_PHASOR_FIELDS]: the declaration wins. *)
Lemma resolve_declared_unchanged_witness :
  FileFormat.MAT_PHASOR_FIELDS ≠ FileFormat.AUTODETECT
  ∧ FormatCatalog.resolve (λ _ : string, tt)
      (λ _, Some FormatCatalog.HDF5)
      (λ _ f, bool_decide (f = FileFormat.HDF5_TAL))
      "capture.hdf5" FileFormat.MAT_PHASOR_FIELDS
    = FormatCatalog.Resolved FileFormat.MAT_PHASOR_FIELDS.
Proof.
  split; [discriminate|].
  apply (resolve_declared_unchanged (λ _ : string, tt)). discriminate.
Defined.

(** On the same file [AUTODETECT] resolves by the content. *)
Example resolve_autodetect_tal :
  FormatCatalog.resolve (λ _ : string, tt)
    (λ _, Some FormatCatalog.HDF5)
    (λ _ f, bool_decide (f = FileFormat.HDF5_TAL))
    "capture.hdf5" FileFormat.AUTODETECT
  = FormatCatalog.Resolved FileFormat.HDF5_TAL.
Proof. reflexivity. Qed.

(** *** File formats *)

(** C7.  [FileFormat] is the closed set of the six variants
    [AUTODETECT], [HDF5_ZNLOS], [HDF5_NLOS_DIRAC], [HDF5_TAL],
    [MAT_PHASOR_FIELDS] and [MAT_PHASOR_FIELD_DIFFRACTION]: every value of
    the type is one of them, they are pairwise distinct, and they are the
    members that [Enum] makes of the class body. *)
Theorem file_format_six_variants :
  let six := [FileFormat.AUTODETECT; FileFormat.HDF5_ZNLOS;
              FileFormat.HDF5_NLOS_DIRAC; FileFormat.HDF5_TAL;
              FileFormat.MAT_PHASOR_FIELDS;
              FileFormat.MAT_PHASOR_FIELD_DIFFRACTION] in
  (∀ f : FileFormat.t, f ∈ six)
  ∧ NoDup six
  ∧ length six = 6%nat
  ∧ Py.members FileFormat.body
    = (λ f, (FileFormat.name f, FileFormat.value f)) <$> six.
Proof.
  intros six. split_and!.
  - exact (elem_of_enum (A:=FileFormat.t)).
  - exact (NoDup_enum FileFormat.t).
  - reflexivity.
  - reflexivity.
Qed.

(** *** Camera systems *)

(** A program that only reads leaves the store as it found it. *)
Lemma exec_read_only {T A} (p : PyRun.prog T A) (σ : PyRun.store T) :
  PyRun.read_only p → (PyRun.exec p σ).2 = σ.
Proof.
  induction p as [a | e | x k IH | x ns k IH]; simpl; intros Hro;
    [done | done | | done].
  destruct (σ !! x) as [ns|]; [|done]. by apply IH.
Qed.

Lemma read_only_bind {T A B} (p : PyRun.prog T A) (f : A → PyRun.prog T B) :
  PyRun.read_only p → (∀ a, PyRun.read_only (f a)) →
  PyRun.read_only (PyRun.bind p f).
Proof.
  intros Hp Hf.
  induction p as [a | e | x k IH | x ns k IH]; simpl in *;
    [apply Hf | done | | done].
  intros ns. by apply IH.
Qed.

Lemma read_only_load_member {T} (cls attr : string) :
  PyRun.read_only (PyRun.load_member (T:=T) cls attr).
Proof. intros ns. simpl. by destruct (ns !! attr). Qed.

Lemma read_only_list_display {T} (cls : string) (attrs : list string) :
  PyRun.read_only (PyRun.list_display (T:=T) cls attrs).
Proof.
  induction attrs as [|attr rest IH]; [done|].
  cbn [PyRun.list_display].
  apply read_only_bind; [apply read_only_load_member|].
  intros m. by apply read_only_bind.
Qed.

Lemma read_only_return_self_in {T} `{EqDecision T} (self : T) (cls : string)
    (attrs : list string) :
  PyRun.read_only (PyRun.return_self_in self cls attrs).
Proof. apply read_only_bind; [apply read_only_list_display | done]. Qed.

Lemma read_only_repeatable {T A} (p : PyRun.prog T A) (σ : PyRun.store T) :
  PyRun.read_only p → PyRun.repeatable p σ.
Proof.
  intros Hro. unfold PyRun.repeatable.
  pose proof (exec_read_only p σ Hro) as Hσ.
  destruct (PyRun.exec p σ) as [r1 σ1] eqn:Hrun. simpl in Hσ. subst σ1.
  by rewrite Hrun.
Qed.

(** In the state that the module leaves, the three bodies return what the
    methods of [CameraSystem] return. *)
Lemma camera_system_run_module_store (c : CameraSystem.t) :
  PyRun.exec (CameraSystemRun.bp_accounts_for_d_2 c)
    CameraSystemRun.module_store
  = (inr (CameraSystem.bp_accounts_for_d_2 c), CameraSystemRun.module_store)
  ∧ PyRun.exec (CameraSystemRun.is_transient c) CameraSystemRun.module_store
    = (inr (CameraSystem.is_transient c), CameraSystemRun.module_store)
  ∧ PyRun.exec (CameraSystemRun.implements_projector c)
      CameraSystemRun.module_store
    = (inr (CameraSystem.implements_projector c),
       CameraSystemRun.module_store).
Proof. destruct c; split_and!; reflexivity. Qed.

(** A body that binds a global is not repeatable: the store that it
    leaves is not the store that it started from. *)
Example rebinding_body_not_repeatable :
  ¬ PyRun.repeatable CameraSystemRun.rebinding_body
      CameraSystemRun.module_store.
Proof.
  unfold PyRun.repeatable. simpl. intros (_ & Hσ & _).
  apply (f_equal (λ σ, σ !! "CameraSystem" ≫= (.!! "TRANSIENT"))) in Hσ.
  vm_compute in Hσ. discriminate.
Qed.

(** C6.  The three derived queries are pure and deterministic: their
    bodies only read the module state, so that on every variant and from
    every state two successive calls of a query give the same result and
    leave the state as it was before the first call. *)
Theorem camera_system_queries_pure (c : CameraSystem.t)
    (σ : PyRun.store CameraSystem.t) :
  PyRun.repeatable (CameraSystemRun.bp_accounts_for_d_2 c) σ
  ∧ PyRun.repeatable (CameraSystemRun.is_transient c) σ
  ∧ PyRun.repeatable (CameraSystemRun.implements_projector c) σ.
Proof.
  split_and!; apply read_only_repeatable, read_only_return_self_in.
Qed.

(** C8.  Two distinct variants never have the same flag triple: the three
    flags determine the variant. *)
Theorem camera_system_flags_distinct (c1 c2 : CameraSystem.t) :
  c1 ≠ c2 → CameraSystem.flags c1 ≠ CameraSystem.flags c2.
Proof. intros Hne Heq. by destruct c1, c2. Qed.

Lemma camera_system_flags_distinct_witness :
  CameraSystem.DIRECT_LIGHT ≠ CameraSystem.TRANSIENT_T0
  ∧ CameraSystem.flags CameraSystem.DIRECT_LIGHT
    ≠ CameraSystem.flags CameraSystem.TRANSIENT_T0.
Proof.
  split; [discriminate|].
  apply camera_system_flags_distinct. discriminate.
Defined.

(** C9.  A variant that implements the projector accounts for the
    inverse-square falloff. *)
Theorem projector_accounts_for_d_2 (c : CameraSystem.t) :
  CameraSystem.implements_projector c = true →
  CameraSystem.bp_accounts_for_d_2 c = true.
Proof.
  unfold CameraSystem.implements_projector, CameraSystem.bp_accounts_for_d_2.
  rewrite !contains_elem_of, !list_elem_of_In. simpl.
  intros [<- | [<- | []]]; auto.
Qed.

Lemma projector_accounts_for_d_2_witness :
  CameraSystem.implements_projector CameraSystem.PROJECTOR_CAMERA_T0 = true
  ∧ CameraSystem.bp_accounts_for_d_2 CameraSystem.PROJECTOR_CAMERA_T0 = true.
Proof.
  split; [reflexivity|].
  apply projector_accounts_for_d_2. reflexivity.
Defined.

(** C10.  The variants evaluated at the single instant t = 0,
    [DIRECT_LIGHT], [TRANSIENT_T0] and [PROJECTOR_CAMERA_T0], are not
    transient. *)
Theorem single_instant_not_transient (c : CameraSystem.t) :
  c ∈ CameraSystem.single_instant → CameraSystem.is_transient c = false.
Proof.
  unfold CameraSystem.single_instant, CameraSystem.is_transient.
  rewrite contains_not_elem_of, !list_elem_of_In. simpl.
  intros [<- | [<- | [<- | []]]] [? | [? | [? | []]]]; discriminate.
Qed.

Lemma single_instant_not_transient_witness :
  CameraSystem.TRANSIENT_T0 ∈ CameraSystem.single_instant
  ∧ CameraSystem.is_transient CameraSystem.TRANSIENT_T0 = false.
Proof.
  assert (Hin : CameraSystem.TRANSIENT_T0 ∈ CameraSystem.single_instant)
    by (right; left).
  split; [exact Hin|].
  apply single_instant_not_transient. exact Hin.
Defined.

(** ** Member lookup by value and by name *)

(** A body whose values are pairwise distinct, and new with respect to the
    values seen so far, has no alias: every name becomes a member. *)
Lemma members_from_no_alias (seen : list Z) (body : Py.enum_body) :
  NoDup body.*2 →
  (∀ v, v ∈ body.*2 → v ∉ seen) →
  Py.members_from seen body = body.
Proof.
  revert seen.
  induction body as [|[n v] rest IH]; intros seen Hnd Hfresh; [done|].
  apply NoDup_cons in Hnd as [Hv Hrest]. simpl.
  rewrite bool_decide_eq_false_2 by (apply Hfresh; left).
  f_equal. apply IH; [done|].
  intros w Hw [-> | Hseen]%elem_of_cons; [done|].
  by apply (Hfresh w); [right|].
Qed.

Section tal_enum.
Context {T : Type} `{PyEnum.TalEnum T}.

Lemma tal_enum_no_alias :
  Py.members (PyEnum.py_body T) = PyEnum.py_body T.
Proof.
  apply members_from_no_alias.
  - rewrite PyEnum.py_values. apply NoDup_seqZ.
  - intros v _. apply not_elem_of_nil.
Qed.

Lemma tal_enum_body : PyEnum.py_body T = PyEnum.member <$> enum T.
Proof. rewrite <- tal_enum_no_alias. apply PyEnum.py_members. Qed.

Lemma tal_enum_values :
  PyEnum.py_value <$> enum T = seqZ 0 (Z.of_nat (card T)).
Proof.
  pose proof PyEnum.py_values as Hvalues.
  rewrite tal_enum_body, <- list_fmap_compose, length_fmap in Hvalues.
  exact Hvalues.
Qed.

Lemma tal_enum_names : NoDup (PyEnum.py_name <$> enum T).
Proof.
  pose proof PyEnum.py_names as Hnames.
  by rewrite tal_enum_body, <- list_fmap_compose in Hnames.
Qed.

(** A function whose image of the enumeration has no duplicate is
    injective. *)
Lemma enum_fmap_inj {B} (f : T → B) (m1 m2 : T) :
  NoDup (f <$> enum T) → f m1 = f m2 → m1 = m2.
Proof.
  intros Hnd Heq.
  destruct (list_elem_of_lookup_1 _ _ (elem_of_enum m1)) as [i Hi].
  destruct (list_elem_of_lookup_1 _ _ (elem_of_enum m2)) as [j Hj].
  assert (i = j) as ->.
  { apply (NoDup_lookup _ _ _ (f m1) Hnd).
    - by rewrite list_lookup_fmap, Hi.
    - by rewrite list_lookup_fmap, Hj, Heq. }
  congruence.
Qed.

Lemma tal_enum_value_inj (m1 m2 : T) :
  PyEnum.py_value m1 = PyEnum.py_value m2 → m1 = m2.
Proof.
  apply enum_fmap_inj. rewrite tal_enum_values. apply NoDup_seqZ.
Qed.

Lemma tal_enum_name_inj (m1 m2 : T) :
  PyEnum.py_name m1 = PyEnum.py_name m2 → m1 = m2.
Proof. apply enum_fmap_inj, tal_enum_names. Qed.

Lemma tal_enum_value_range (z : Z) :
  (∃ m : T, PyEnum.py_value m = z) ↔ 0 ≤ z < Z.of_nat (card T).
Proof.
  rewrite <- (Z.add_0_l (Z.of_nat (card T))) at 1.
  rewrite <- elem_of_seqZ, <- tal_enum_values, list_elem_of_fmap.
  split.
  - intros [m <-]. exists m. split; [done | apply elem_of_enum].
  - intros (m & -> & _). by exists m.
Qed.

(** The search that [Cls(v)] makes through the members stops at the
    member that has the value. *)
Lemma find_by_value (m : T) :
  ∃ i, list_find (λ p : string * Z, p.2 = PyEnum.py_value m)
         (Py.members (PyEnum.py_body T)) = Some (i, PyEnum.member m).
Proof.
  rewrite PyEnum.py_members, list_find_fmap.
  destruct (list_find _ (enum T)) as [[i m']|] eqn:Hfind; simpl.
  - apply list_find_Some in Hfind as (_ & Hv & _). simpl in Hv.
    apply tal_enum_value_inj in Hv as ->. by exists i.
  - apply list_find_None in Hfind. rewrite Forall_forall in Hfind.
    by destruct (Hfind m (elem_of_enum m)).
Qed.

(** The search that [Cls[key]] makes through the class body stops at the
    line of the member that has the name. *)
Lemma find_by_name (m : T) :
  ∃ i, list_find (λ p : string * Z, p.1 = PyEnum.py_name m)
         (PyEnum.py_body T) = Some (i, PyEnum.member m).
Proof.
  rewrite tal_enum_body, list_find_fmap.
  destruct (list_find _ (enum T)) as [[i m']|] eqn:Hfind; simpl.
  - apply list_find_Some in Hfind as (_ & Hn & _). simpl in Hn.
    apply tal_enum_name_inj in Hn as ->. by exists i.
  - apply list_find_None in Hfind. rewrite Forall_forall in Hfind.
    by destruct (Hfind m (elem_of_enum m)).
Qed.

(** X4.  Value round trip: in every enum class of the module, looking a
    member's value up again, [Cls(m.value)], gives the member [m] back. *)
Theorem by_value_round_trip (m : T) :
  PyEnum.by_value (PyEnum.py_body T) (PyEnum.py_value m)
  = inr (PyEnum.member m).
Proof.
  unfold PyEnum.by_value. by destruct (find_by_value m) as [i ->].
Qed.

(** X5.  In every enum class of the module with [n] members, [Cls(z)]
    returns a member, the one whose value is [z], exactly when
    [0 <= z < n], and raises [ValueError] for every other integer. *)
Theorem by_value_range (z : Z) :
  match PyEnum.by_value (PyEnum.py_body T) z with
  | inr p => 0 ≤ z < Z.of_nat (card T)
             ∧ ∃ m : T, p = PyEnum.member m ∧ PyEnum.py_value m = z
  | inl e => e = PyEnum.ValueError z ∧ ¬ (0 ≤ z < Z.of_nat (card T))
  end.
Proof.
  destruct (decide (0 ≤ z < Z.of_nat (card T))) as [Hin | Hout].
  - destruct (proj2 (tal_enum_value_range z) Hin) as [m <-].
    unfold PyEnum.by_value. destruct (find_by_value m) as [i ->]. eauto.
  - unfold PyEnum.by_value.
    destruct (list_find _ _) as [[i p]|] eqn:Hfind; [|done].
    apply list_find_Some in Hfind as (Hp & Hv & _). simpl in Hv.
    rewrite PyEnum.py_members in Hp.
    apply list_lookup_fmap_Some_1 in Hp as (m & -> & _).
    destruct Hout. apply tal_enum_value_range. by exists m.
Qed.

(** X6.  Name round trip: in every enum class of the module, looking a
    member's name up again, [Cls[m.name]], gives the member [m] back. *)
Theorem by_name_round_trip (m : T) :
  PyEnum.by_name (PyEnum.py_body T) (PyEnum.py_name m)
  = inr (PyEnum.member m).
Proof.
  unfold PyEnum.by_name. destruct (find_by_name m) as [i ->]. simpl.
  by destruct (find_by_value m) as [j ->].
Qed.

(** X7.  In every enum class of the module, [Cls[key]] raises [KeyError]
    for a [key] that is the name of no member. *)
Theorem by_name_unknown (key : string) :
  (∀ m : T, PyEnum.py_name m ≠ key) →
  PyEnum.by_name (PyEnum.py_body T) key = inl (PyEnum.KeyError key).
Proof.
  intros Hkey. unfold PyEnum.by_name.
  destruct (list_find _ (PyEnum.py_body T)) as [[i [n v]]|] eqn:Hfind;
    [|done].
  apply list_find_Some in Hfind as (Hp & Hn & _). simpl in Hn.
  rewrite tal_enum_body in Hp.
  apply list_lookup_fmap_Some_1 in Hp as (m & [= -> ->] & _).
  by destruct (Hkey m).
Qed.

End tal_enum.

(** The class docstring of [HFormat] writes [T_Si_Li] for the member that
    the class body names [T_Li_Si]: the documented name is no key. *)
Lemma by_name_unknown_witness :
  (∀ m : HFormat.t, PyEnum.py_name m ≠ "T_Si_Li")
  ∧ PyEnum.by_name HFormat.body "T_Si_Li"
    = inl (PyEnum.KeyError "T_Si_Li").
Proof.
  assert (Hkey : ∀ m : HFormat.t, PyEnum.py_name m ≠ "T_Si_Li")
    by (intros []; discriminate).
  split; [exact Hkey|].
  exact (by_name_unknown (T:=HFormat.t) "T_Si_Li" Hkey).
Defined.

Example by_value_hformat :
  PyEnum.by_value HFormat.body 4 = inr ("T_Li_Si", 4)
  ∧ PyEnum.by_value HFormat.body 5 = inl (PyEnum.ValueError 5)
  ∧ PyEnum.by_value HFormat.body (-1) = inl (PyEnum.ValueError (-1)).
Proof. split_and!; reflexivity. Qed.

Example by_name_camera_system :
  PyEnum.by_name CameraSystem.body "TRANSIENT_T0" = inr ("TRANSIENT_T0", 5)
  ∧ PyEnum.by_name CameraSystem.body "STEADY_STATE"
    = inl (PyEnum.KeyError "STEADY_STATE").
Proof. split; reflexivity. Qed.

(** ** Camera systems: time-resolved and single-instant variants *)

(** X1.  A camera system is not transient exactly when it is one of the
    variants evaluated at t = 0: [is_transient] is false on
    [DIRECT_LIGHT], [TRANSIENT_T0] and [PROJECTOR_CAMERA_T0] and on no
    other variant. *)
Theorem not_transient_iff_single_instant (c : CameraSystem.t) :
  CameraSystem.is_transient c = false ↔ c ∈ CameraSystem.single_instant.
Proof.
  rewrite <- contains_elem_of. by destruct c.
Qed.

(** X2.  Evaluating a camera system at t = 0 changes only its time
    behaviour: when [c] is the variant [b] evaluated at t = 0, [b] is
    transient, [c] is not, and [c] has the flags [bp_accounts_for_d_2]
    and [implements_projector] of [b]. *)
Theorem evaluated_at_t0_flags (c b : CameraSystem.t) :
  CameraTime.evaluated_at_t0_of c = Some b →
  CameraSystem.is_transient b = true
  ∧ CameraSystem.is_transient c = false
  ∧ CameraSystem.bp_accounts_for_d_2 c = CameraSystem.bp_accounts_for_d_2 b
  ∧ CameraSystem.implements_projector c
    = CameraSystem.implements_projector b.
Proof. destruct c; intros [= <-]; by split_and!. Qed.

Lemma evaluated_at_t0_flags_witness :
  CameraTime.evaluated_at_t0_of CameraSystem.DIRECT_LIGHT
  = Some CameraSystem.CONFOCAL_TIME_GATED
  ∧ CameraSystem.is_transient CameraSystem.CONFOCAL_TIME_GATED = true
  ∧ CameraSystem.is_transient CameraSystem.DIRECT_LIGHT = false
  ∧ CameraSystem.bp_accounts_for_d_2 CameraSystem.DIRECT_LIGHT
    = CameraSystem.bp_accounts_for_d_2 CameraSystem.CONFOCAL_TIME_GATED
  ∧ CameraSystem.implements_projector CameraSystem.DIRECT_LIGHT
    = CameraSystem.implements_projector CameraSystem.CONFOCAL_TIME_GATED.
Proof.
  split; [reflexivity|].
  apply evaluated_at_t0_flags. reflexivity.
Defined.

(** ** Grid and volume layouts *)

(** X3.  Every [GridFormat] member has a [VolumeFormat] member of the
    same name, which lookup by name finds; lookup by the integer value
    finds that same member for [UNKNOWN] and [N_3] but not for [X_Y_3],
    whose value 2 is the value of [VolumeFormat.X_Y_Z_3]. *)
Theorem grid_format_as_volume_format (g : GridFormat.t) :
  ∃ v : VolumeFormat.t,
    VolumeFormat.name v = GridFormat.name g
    ∧ PyEnum.by_name VolumeFormat.body (GridFormat.name g)
      = inr (PyEnum.member v)
    ∧ (PyEnum.by_value VolumeFormat.body (GridFormat.value g)
       = inr (PyEnum.member v) ↔ g ≠ GridFormat.X_Y_3).
Proof.
  destruct g;
    [exists VolumeFormat.UNKNOWN | exists VolumeFormat.N_3
     | exists VolumeFormat.X_Y_3];
    (split_and!; [reflexivity | reflexivity | split; [|done]]).
  - discriminate.
  - discriminate.
  - vm_compute. intros [=].
Qed.

Example grid_x_y_3_by_value :
  PyEnum.by_value VolumeFormat.body (GridFormat.value GridFormat.X_Y_3)
  = inr ("X_Y_Z_3", 2).
Proof. reflexivity. Qed.

(** ** Layout queries and member names *)

(** X8.  When [time_dim] returns an index on an [HFormat] member, the
    axis that the member's name lists at that index is [T], and the name
    lists [T] at no other index. *)
Theorem time_dim_names_T (h : HFormat.t) (i : Z) :
  HFormat.time_dim h = Py.Returns i →
  ∀ j : nat, PyStr.axes (HFormat.name h) !! j = Some "T" ↔ j = Z.to_nat i.
Proof.
  destruct h; intros [= <-] j.
  all: split; [|by intros ->].
  all: do 5 (destruct j as [|j]; try done).
Qed.

Lemma time_dim_names_T_witness :
  HFormat.time_dim HFormat.T_Lx_Ly_Sx_Sy = Py.Returns 0
  ∧ ∀ j : nat,
      PyStr.axes (HFormat.name HFormat.T_Lx_Ly_Sx_Sy) !! j = Some "T"
      ↔ j = Z.to_nat 0.
Proof.
  split; [reflexivity|].
  apply time_dim_names_T. reflexivity.
Defined.

(** X9.  When [xyz_dim_is_last] returns [True] on a [VolumeFormat] member,
    the last axis that the member's name lists is [3], the axis of the
    three coordinates. *)
Theorem xyz_dim_is_last_names_3 (v : VolumeFormat.t) :
  VolumeFormat.xyz_dim_is_last v = Py.Returns true →
  last (PyStr.axes (VolumeFormat.name v)) = Some "3".
Proof. by destruct v. Qed.

Lemma xyz_dim_is_last_names_3_witness :
  VolumeFormat.xyz_dim_is_last VolumeFormat.X_Y_Z_3 = Py.Returns true
  ∧ last (PyStr.axes (VolumeFormat.name VolumeFormat.X_Y_Z_3)) = Some "3".
Proof.
  split; [reflexivity|].
  apply xyz_dim_is_last_names_3. reflexivity.
Defined.

Example axes_T_Lx_Ly_Sx_Sy :
  PyStr.axes "T_Lx_Ly_Sx_Sy" = ["T"; "Lx"; "Ly"; "Sx"; "Sy"].
Proof. reflexivity. Qed.

Example enum_class_sizes :
  card FileFormat.t = 6%nat ∧ card HFormat.t = 5%nat
  ∧ card GridFormat.t = 3%nat ∧ card VolumeFormat.t = 4%nat
  ∧ card CameraSystem.t = 6%nat.
Proof. by split_and!. Qed.
